(** * kfp.v2.dsl.type_utils: component I/O type mapping

    A shallow embedding of [sdk/python/kfp/v2/dsl/type_utils.py] and the
    properties of its four lookup functions.

    The module holds two dictionaries built when the module is loaded and
    four functions that read them.  Python values are dynamically typed, a
    method call on a value without that method raises [AttributeError], and
    the dictionaries are module globals that any code could in principle
    write to.  The embedding keeps all three visible: values are a tagged
    union, every function runs in a monad that threads the module globals
    and may raise, and the tables are [gmap]s with string keys.  Nothing in
    the module checks that an argument is a [str] before calling [lower] on
    it, so the arguments include [bytes], the built-in type that is not a
    string and yet has that method. *)

From Stdlib Require Import ZArith NArith Ascii String.
From stdpp Require Import base option list gmap strings fin_maps.

#[local] Open Scope string_scope.
#[local] Set Warnings "-register-all".

(** ** Strings

    A Python [str] is modelled by [string]; a character is a code point in
    the range U+0000..U+00FF.  On that range [str.lower] maps a character
    to a character of the same range, so the model is closed. *)

Module Str.

Definition in_range (lo hi n : N) : bool := (lo <=? n)%N && (n <=? hi)%N.

(** [str.lower] on one code point: the letters A-Z, and the accented
    capitals U+00C0..U+00DE without the multiplication sign U+00D7, move
    up by 32; every other code point below U+0100 is its own lowercase. *)
Definition lower_char (c : ascii) : ascii :=
  let n := N_of_ascii c in
  if in_range 65 90 n || (in_range 192 222 n && negb (n =? 215)%N)
  then ascii_of_N (n + 32)
  else c.

(** [s.lower()] *)
Fixpoint lower (s : string) : string :=
  match s with
  | EmptyString => EmptyString
  | String c s' => String (lower_char c) (lower s')
  end.

(** The capital of an unaccented small letter; other characters are kept.
    Only used to say what a casing of an alias is. *)
Definition upper_char (c : ascii) : ascii :=
  let n := N_of_ascii c in
  if in_range 97 122 n then ascii_of_N (n - 32) else c.

(** [casing s k]: [s] spells [k] with any choice of capital and small
    letters, position by position. *)
Fixpoint casing (s k : string) : bool :=
  match s, k with
  | EmptyString, EmptyString => true
  | String a s', String c k' =>
      (Ascii.eqb a c || Ascii.eqb a (upper_char c)) && casing s' k'
  | _, _ => false
  end.

(** An alias written in small unaccented letters only. *)
Fixpoint small_letters (s : string) : bool :=
  match s with
  | EmptyString => true
  | String c s' => in_range 97 122 (N_of_ascii c) && small_letters s'
  end.

Definition nl : string := String "010" EmptyString.

End Str.

(** ** Bytes

    The content of a Python [bytes] object is a sequence of 8-bit values,
    written here as a [string] too; what tells a [bytes] from a [str] is
    the constructor that holds it. *)

Module Bytes.

(** [bytes.lower] on one byte: only the ASCII letters A-Z move; a byte
    above 127 is not a letter. *)
Definition lower_byte (c : ascii) : ascii :=
  let n := N_of_ascii c in
  if Str.in_range 65 90 n then ascii_of_N (n + 32) else c.

(** [b.lower()] *)
Fixpoint lower (b : string) : string :=
  match b with
  | EmptyString => EmptyString
  | String c b' => String (lower_byte c) (lower b')
  end.

End Bytes.

(** ** [textwrap.dedent]

    The schema documents are written as indented triple-quoted literals
    passed through the standard library's [textwrap.dedent]: lines made of
    blanks and tabs only become empty, the margin is the longest run of
    leading blanks and tabs common to the remaining non-empty lines, and
    that margin is removed from the front of every line that has it. *)

Module Textwrap.

Definition is_blank (c : ascii) : bool :=
  (N_of_ascii c =? 32)%N || (N_of_ascii c =? 9)%N.

(** [text.split('\n')], the current line being accumulated in reverse. *)
Fixpoint split_lines_aux (acc : list ascii) (s : string) : list (list ascii) :=
  match s with
  | EmptyString => [rev acc]
  | String c s' =>
      if (N_of_ascii c =? 10)%N
      then rev acc :: split_lines_aux [] s'
      else split_lines_aux (c :: acc) s'
  end.

Definition split_lines (s : string) : list (list ascii) :=
  split_lines_aux [] s.

(** The effect of [_whitespace_only_re.sub('', text)] on one line. *)
Definition normalise (l : list ascii) : list ascii :=
  if forallb is_blank l then [] else l.

(** The match of [_leading_whitespace_re] on one line. *)
Fixpoint indent (l : list ascii) : list ascii :=
  match l with
  | c :: l' => if is_blank c then c :: indent l' else []
  | [] => []
  end.

Fixpoint common_prefix (a b : list ascii) : list ascii :=
  match a, b with
  | x :: a', y :: b' =>
      if Ascii.eqb x y then x :: common_prefix a' b' else []
  | _, _ => []
  end.

(** The loop over [indents]: [margin] starts as [None] and shrinks to
    what it shares with each indentation in turn. *)
Definition margin (ls : list (list ascii)) : option (list ascii) :=
  foldl (fun m l =>
           match l with
           | [] => m
           | _ :: _ =>
               match m with
               | None => Some (indent l)
               | Some mg => Some (common_prefix mg (indent l))
               end
           end) None ls.

Fixpoint strip_prefix (p l : list ascii) : option (list ascii) :=
  match p, l with
  | [], _ => Some l
  | x :: p', y :: l' => if Ascii.eqb x y then strip_prefix p' l' else None
  | _ :: _, [] => None
  end.

(** [re.sub(r'(?m)^' + margin, '', text)] on one line. *)
Definition remove_margin (mg l : list ascii) : list ascii :=
  match strip_prefix mg l with
  | Some l' => l'
  | None => l
  end.

Fixpoint join_lines (ls : list (list ascii)) : string :=
  match ls with
  | [] => EmptyString
  | [l] => string_of_list_ascii l
  | l :: ls' => string_of_list_ascii l +:+ Str.nl +:+ join_lines ls'
  end.

Definition dedent (text : string) : string :=
  let ls := map normalise (split_lines text) in
  match margin ls with
  | Some (c :: mg) => join_lines (map (remove_margin (c :: mg)) ls)
  | _ => join_lines ls
  end.

End Textwrap.

(** ** Python values and collaborators *)

(** The exception of a failed attribute lookup. *)
Inductive exception : Set :=
| AttributeError.

(** What a component specification can hold as a type: [None], a boolean,
    an integer, a string, a list or a dictionary with string keys, nested
    at will. *)
Inductive value : Set :=
| PyNone
| PyBool (b : bool)
| PyInt (n : Z)
| PyStr (s : string)
| PyList (items : list value)
| PyDict (items : list (string * value)).

(** What a caller can pass as [type_name]: one of the values above, or a
    [bytes] object.  Other objects with a [lower] method of their own are
    left out. *)
Inductive object : Set :=
| Plain (v : value)
| PyBytes (b : string).
Coercion Plain : value >-> object.

(** [isinstance(o, str)] *)
Definition isinstance_str (o : object) : bool :=
  match o with
  | Plain (PyStr _) => true
  | _ => false
  end.


(** What [lower] returns: a [str] from a [str], a [bytes] from a [bytes]. *)
Inductive lowered_name : Set :=
| LowerStr (s : string)
| LowerBytes (b : string).

Module pipeline_spec_pb2.

(** Modelled from the spec: the generated protobuf module
    [kfp.v2.proto.pipeline_spec_pb2] is not part of the sources; the
    primitive-type enumeration provides the named values INT, DOUBLE and
    STRING. *)
Inductive PrimitiveType : Set :=
| INT
| DOUBLE
| STRING.

End pipeline_spec_pb2.
Import pipeline_spec_pb2.

Module structures.

(** Modelled from the spec: [kfp.components.structures.InputSpec] is not
    part of the sources; an Input Spec has at least a [name], a string,
    and a [type], which the component author is free to leave out or to
    write as a structured value. *)
Record InputSpec : Set := {
  name : string;
  type : value;
}.

End structures.
Import structures.

(** ** Module globals and the execution monad *)

(** The module-level names bound when the module is loaded. *)
Record globals : Type := {
  _ARTIFACT_TYPES_MAPPING : gmap string string;
  _PARAMETER_TYPES_MAPPING : gmap string PrimitiveType;
}.

(** How a call ends: with a value, or with an exception on its way up. *)
Inductive outcome (A : Type) : Type :=
| Return (a : A)
| Raise (e : exception).
Arguments Return {A} a.
Arguments Raise {A} e.

(** A computation reads and may replace the globals, and ends in an
    outcome.  The globals survive an exception. *)
Definition M (A : Type) : Type := globals -> outcome A * globals.

Definition ret {A} (a : A) : M A := fun g => (Return a, g).

Definition raise {A} (e : exception) : M A := fun g => (Raise e, g).

Definition bind {A B} (m : M A) (k : A -> M B) : M B :=
  fun g =>
    match m g with
    | (Return a, g') => k a g'
    | (Raise e, g') => (Raise e, g')
    end.

(** Evaluating a global name. *)
Definition load_global {A} (field : globals -> A) : M A :=
  fun g => (Return (field g), g).

Notation "x <- m ;; k" := (bind m (fun x => k))
  (at level 100, m at next level, right associativity).

(** [o.lower()]: the attribute lookup fails on an object without the
    method; a string and a bytes object each answer in their own type. *)
Definition call_lower (o : object) : M lowered_name :=
  match o with
  | Plain (PyStr s) => ret (LowerStr (Str.lower s))
  | PyBytes b => ret (LowerBytes (Bytes.lower b))
  | Plain _ => raise AttributeError
  end.

(** [key in d] for a dictionary [d]. *)
Definition dict_contains {V} (d : gmap string V) (key : string) : bool :=
  bool_decide (is_Some (d !! key)).

(** [d.get(key)] *)
Definition dict_get {V} (d : gmap string V) (key : string) : option V :=
  d !! key.

(** [d.get(key, default)] *)
Definition dict_get_default {V} (d : gmap string V) (key : string) (dflt : V) : V :=
  default dflt (d !! key).

(** The same three operations when the key is the result of [lower].  The
    dictionaries of this module have [str] keys only, and a [bytes] object
    is equal to no [str], so a [bytes] key is never found. *)
Definition key_in {V} (d : gmap string V) (key : lowered_name) : bool :=
  match key with
  | LowerStr k => dict_contains d k
  | LowerBytes _ => false
  end.

Definition key_get {V} (d : gmap string V) (key : lowered_name) : option V :=
  match key with
  | LowerStr k => dict_get d k
  | LowerBytes _ => None
  end.

Definition key_get_default {V}
    (d : gmap string V) (key : lowered_name) (dflt : V) : V :=
  match key with
  | LowerStr k => dict_get_default d k dflt
  | LowerBytes _ => dflt
  end.

(** A dictionary display [{k1: v1, k2: v2, ...}]: the pairs are stored
    from left to right, a later pair replacing an earlier one of the same
    key. *)
Definition dict_display {V} (pairs : list (string * V)) : gmap string V :=
  foldl (fun d kv => <[kv.1 := kv.2]> d) ∅ pairs.

(** ** The two tables *)

(** The body of a triple-quoted literal whose lines are [ls], each ended by
    a newline, followed by the indentation of the closing quotes. *)
Definition literal (ls : list string) (closing : string) : string :=
  foldr (fun l rest => l +:+ Str.nl +:+ rest) closing ls.

Definition artifact_types_mapping : gmap string string :=
  dict_display [
    ("gcspath", Textwrap.dedent (literal [
        "        title: kfp.Artifact";
        "        type: object";
        "        properties:" ]
        "    "));
    ("model", Textwrap.dedent (literal [
        "        title: kfp.Model";
        "        type: object";
        "        properties:" ]
        "    "));
    ("dataset", Textwrap.dedent (literal [
        "        title: kfp.Dataset";
        "        type: object";
        "        properties:" ]
        "    "));
    ("metrics", Textwrap.dedent (literal [
        "        title: kfp.Metrics";
        "        type: object";
        "        properties:" ]
        "    "));
    ("schema", Textwrap.dedent (literal [
        "        title: kfp.Schema";
        "        type: object";
        "        properties:" ]
        "    "))
  ].

Definition parameter_types_mapping : gmap string PrimitiveType :=
  dict_display [
    ("integer", INT);
    ("int", INT);
    ("double", DOUBLE);
    ("float", DOUBLE)
  ].

(** The globals once the module is loaded. *)
Definition module_globals : globals := {|
  _ARTIFACT_TYPES_MAPPING := artifact_types_mapping;
  _PARAMETER_TYPES_MAPPING := parameter_types_mapping;
|}.

(** ** The four functions *)

Definition is_artifact_type (type_name : object) : M bool :=
  if negb (isinstance_str type_name) then
    ret false
  else
    lowered <- call_lower type_name ;;
    table <- load_global _ARTIFACT_TYPES_MAPPING ;;
    ret (key_in table lowered).

Definition get_artifact_type_schema (type_name : object) : M (option string) :=
  table <- load_global _ARTIFACT_TYPES_MAPPING ;;
  lowered <- call_lower type_name ;;
  ret (key_get table lowered).

Definition get_parameter_type (type_name : object) : M PrimitiveType :=
  if negb (isinstance_str type_name) then
    ret STRING
  else
    table <- load_global _PARAMETER_TYPES_MAPPING ;;
    lowered <- call_lower type_name ;;
    ret (key_get_default table lowered STRING).

(** The [for] loop returns from inside its body at the first input of the
    wanted name; falling off the end of the list returns [None]. *)
Fixpoint get_input_artifact_type_schema
    (input_name : string) (inputs : list InputSpec) : M (option string) :=
  match inputs with
  | [] => ret None
  | component_input :: rest =>
      if String.eqb (name component_input) input_name
      then get_artifact_type_schema (type component_input)
      else get_input_artifact_type_schema input_name rest
  end.

(** Running a call in the freshly loaded module. *)
Definition run {A} (m : M A) : outcome A * globals := m module_globals.

(** ** Sessions of calls

    A caller may invoke the four functions any number of times, in any
    order, and go on after an exception.  A session threads the globals
    through a list of calls and collects the outcomes. *)

Inductive call : Set :=
| Call_is_artifact_type (type_name : object)
| Call_get_artifact_type_schema (type_name : object)
| Call_get_parameter_type (type_name : object)
| Call_get_input_artifact_type_schema (input_name : string) (inputs : list InputSpec).

Inductive answer : Set :=
| Bool (b : bool)
| Schema (doc : option string)
| Primitive (p : PrimitiveType).

Definition perform (c : call) : M answer :=
  match c with
  | Call_is_artifact_type v =>
      b <- is_artifact_type v ;; ret (Bool b)
  | Call_get_artifact_type_schema v =>
      doc <- get_artifact_type_schema v ;; ret (Schema doc)
  | Call_get_parameter_type v =>
      p <- get_parameter_type v ;; ret (Primitive p)
  | Call_get_input_artifact_type_schema n inputs =>
      doc <- get_input_artifact_type_schema n inputs ;; ret (Schema doc)
  end.

Fixpoint session (cs : list call) (g : globals) : list (outcome answer) * globals :=
  match cs with
  | [] => ([], g)
  | c :: cs' =>
      let (r, g') := perform c g in
      let (rs, g'') := session cs' g' in
      (r :: rs, g'')
  end.

(** ** Vocabulary of the statements *)

(** The schema document of an artifact kind, as it reads once dedented. *)
Definition schema_document (title : string) : string :=
  "title: " +:+ title +:+ Str.nl +:+
  "type: object" +:+ Str.nl +:+
  "properties:" +:+ Str.nl.

(** [needle in hay] for strings. *)
Definition contains (needle hay : string) : Prop :=
  exists before after, hay = before +:+ needle +:+ after.

(** No input of the list goes by the name [n]. *)
Definition unnamed (n : string) (inputs : list InputSpec) : bool :=
  forallb (fun d => negb (name d =? n)%string) inputs.

(** Three inputs, two of them sharing a name. *)
Definition three_inputs : list InputSpec := [
  {| name := "a"; type := PyStr "Model" |};
  {| name := "b"; type := PyStr "Integer" |};
  {| name := "a"; type := PyStr "Dataset" |}
].

(** A session that repeats its first call at the end. *)
Definition four_calls : list call := [
  Call_is_artifact_type (PyStr "Model");
  Call_get_artifact_type_schema PyNone;
  Call_get_parameter_type (PyStr "Float");
  Call_is_artifact_type (PyStr "Model")
].

(** The inputs that go by the name [n], in their order. *)
Definition named (n : string) (inputs : list InputSpec) : list InputSpec :=
  filter (fun d => name d = n) inputs.

(** Every input of the list declares its type as a string. *)
Definition string_typed (inputs : list InputSpec) : bool :=
  forallb (fun d => isinstance_str (type d)) inputs.

(** The titles of the five artifact kinds. *)
Definition artifact_titles : list string :=
  [ "kfp.Artifact"; "kfp.Model"; "kfp.Dataset"; "kfp.Metrics"; "kfp.Schema" ].

(** * Properties *)

(** ** Characters and casings *)

Lemma lower_char_small c :
  Str.in_range 97 122 (N_of_ascii c) = true -> Str.lower_char c = c.
Proof.
  destruct c as [[] [] [] [] [] [] [] []]; vm_compute; congruence.
Qed.

Lemma lower_char_capital c :
  Str.in_range 97 122 (N_of_ascii c) = true ->
  Str.lower_char (Str.upper_char c) = c.
Proof.
  destruct c as [[] [] [] [] [] [] [] []]; vm_compute; congruence.
Qed.

Lemma lower_small_letters k :
  Str.small_letters k = true -> Str.lower k = k.
Proof.
  induction k as [|c k IH]; simpl; [done|].
  intros [Hc Hk]%andb_true_iff.
  by rewrite lower_char_small, IH.
Qed.

Lemma casing_lower s k :
  Str.small_letters k = true -> Str.casing s k = true -> Str.lower s = k.
Proof.
  revert k. induction s as [|a s IH]; intros [|c k]; simpl; try done.
  intros [Hc Hk]%andb_true_iff [Ha Hs]%andb_true_iff.
  rewrite (IH k Hk Hs). f_equal.
  apply orb_true_iff in Ha as [->%Ascii.eqb_eq | ->%Ascii.eqb_eq].
  - by apply lower_char_small.
  - by apply lower_char_capital.
Qed.

(** Lowercasing twice is lowercasing once. *)
Lemma lower_char_idem c : Str.lower_char (Str.lower_char c) = Str.lower_char c.
Proof. by destruct c as [[] [] [] [] [] [] [] []]. Qed.

Lemma lower_idem s : Str.lower (Str.lower s) = Str.lower s.
Proof. induction s as [|c s IH]; simpl; [done|]. by rewrite lower_char_idem, IH. Qed.

(** ** The tables as loaded *)

Lemma artifact_types_mapping_eq :
  artifact_types_mapping =
    <["schema" := schema_document "kfp.Schema"]>
    (<["metrics" := schema_document "kfp.Metrics"]>
    (<["dataset" := schema_document "kfp.Dataset"]>
    (<["model" := schema_document "kfp.Model"]>
    (<["gcspath" := schema_document "kfp.Artifact"]> ∅)))).
Proof. by vm_compute. Qed.

Lemma artifact_types_mapping_dom :
  dom artifact_types_mapping =
    ({[ "gcspath"; "model"; "dataset"; "metrics"; "schema" ]} : gset string).
Proof. rewrite artifact_types_mapping_eq, !dom_insert_L. set_solver. Qed.

Lemma parameter_types_mapping_dom :
  dom parameter_types_mapping =
    ({[ "integer"; "int"; "double"; "float" ]} : gset string).
Proof. unfold parameter_types_mapping, dict_display; simpl. rewrite !dom_insert_L. set_solver. Qed.

Lemma artifact_keys_small k :
  k ∈ dom artifact_types_mapping -> Str.small_letters k = true.
Proof.
  rewrite artifact_types_mapping_dom. set_unfold.
  intros Hk. destruct_or!; subst k; reflexivity.
Qed.

(** ** The functions on strings and on other values *)

Lemma is_artifact_type_str s g :
  is_artifact_type (PyStr s) g =
    (Return (dict_contains (_ARTIFACT_TYPES_MAPPING g) (Str.lower s)), g).
Proof. reflexivity. Qed.

Lemma get_artifact_type_schema_str s g :
  get_artifact_type_schema (PyStr s) g =
    (Return (_ARTIFACT_TYPES_MAPPING g !! Str.lower s), g).
Proof. reflexivity. Qed.

Lemma get_parameter_type_str s g :
  get_parameter_type (PyStr s) g =
    (Return (default STRING (_PARAMETER_TYPES_MAPPING g !! Str.lower s)), g).
Proof. reflexivity. Qed.

Lemma is_artifact_type_other v g :
  isinstance_str v = false -> is_artifact_type v g = (Return false, g).
Proof. by destruct v as [[]|]. Qed.

Lemma get_parameter_type_other v g :
  isinstance_str v = false -> get_parameter_type v g = (Return STRING, g).
Proof. by destruct v as [[]|]. Qed.

Lemma get_artifact_type_schema_other (v : value) g :
  isinstance_str v = false ->
  get_artifact_type_schema v g = (Raise AttributeError, g).
Proof. by destruct v. Qed.


Lemma get_artifact_type_schema_bytes b g :
  get_artifact_type_schema (PyBytes b) g = (Return None, g).
Proof. reflexivity. Qed.

Lemma dict_contains_dom {V} (d : gmap string V) key :
  dict_contains d key = bool_decide (key ∈ dom d).
Proof. unfold dict_contains. apply bool_decide_ext. by rewrite elem_of_dom. Qed.

Lemma dict_contains_false {V} (d : gmap string V) key :
  dict_contains d key = false -> d !! key = None.
Proof.
  unfold dict_contains. intros H%bool_decide_eq_false.
  by apply eq_None_not_Some.
Qed.

(** The loop skips a prefix in which nothing has the wanted name. *)
Lemma get_input_artifact_type_schema_skip n front back g :
  unnamed n front = true ->
  get_input_artifact_type_schema n (front ++ back) g =
    get_input_artifact_type_schema n back g.
Proof.
  induction front as [|d front IH]; simpl; [done|].
  intros [Hd Hfront]%andb_true_iff.
  apply negb_true_iff in Hd as ->. by apply IH.
Qed.

(** At the first input of the wanted name the loop hands over to the
    schema lookup and never looks at the rest. *)
Lemma get_input_artifact_type_schema_first n front c back g :
  unnamed n front = true -> name c = n ->
  get_input_artifact_type_schema n (front ++ c :: back) g =
    get_artifact_type_schema (type c) g.
Proof.
  intros Hfront Hc. rewrite get_input_artifact_type_schema_skip by done.
  simpl. by apply String.eqb_eq in Hc as ->.
Qed.

Lemma get_input_artifact_type_schema_none n inputs g :
  unnamed n inputs = true ->
  get_input_artifact_type_schema n inputs g = (Return None, g).
Proof.
  intros H. rewrite <- (app_nil_r inputs).
  by rewrite get_input_artifact_type_schema_skip.
Qed.

(** ** Nothing writes to the globals *)

Lemma is_artifact_type_globals v g : (is_artifact_type v g).2 = g.
Proof. by destruct v as [[]|]. Qed.

Lemma get_artifact_type_schema_globals v g : (get_artifact_type_schema v g).2 = g.
Proof. by destruct v as [[]|]. Qed.

Lemma get_parameter_type_globals v g : (get_parameter_type v g).2 = g.
Proof. by destruct v as [[]|]. Qed.

Lemma get_input_artifact_type_schema_globals n inputs g :
  (get_input_artifact_type_schema n inputs g).2 = g.
Proof.
  induction inputs as [|c inputs IH]; simpl; [done|].
  destruct (name c =? n)%string; [apply get_artifact_type_schema_globals | apply IH].
Qed.

Lemma bind_ret_globals {A B} (m : M A) (f : A -> B) g :
  (m g).2 = g -> ((x <- m ;; ret (f x)) g).2 = g.
Proof. unfold bind. by destruct (m g) as [[a|e] g']. Qed.

Lemma perform_globals c g : (perform c g).2 = g.
Proof.
  destruct c; simpl; apply bind_ret_globals;
    auto using is_artifact_type_globals, get_artifact_type_schema_globals,
      get_parameter_type_globals, get_input_artifact_type_schema_globals.
Qed.

Lemma session_read_only cs g :
  session cs g = (map (fun c => (perform c g).1) cs, g).
Proof.
  induction cs as [|c cs IH]; simpl; [done|].
  pose proof (perform_globals c g) as Hc.
  destruct (perform c g) as [r g']; simpl in Hc; subst g'.
  by rewrite IH.
Qed.

(** Every list either has no input of the wanted name or splits at the
    first one. *)
Lemma first_named n inputs :
  unnamed n inputs = true \/
  exists (front : list InputSpec) c back,
    inputs = (front ++ c :: back)%list /\ unnamed n front = true /\ name c = n.
Proof.
  induction inputs as [|d inputs IH]; simpl; [by left|].
  destruct (name d =? n)%string eqn:Hd; simpl.
  - right. exists [], d, inputs. by apply String.eqb_eq in Hd.
  - destruct IH as [IH | (front & c & back & -> & Hfront & Hc)]; [by left|].
    right. exists (d :: front), c, back. simpl. by rewrite Hd.
Qed.

(** * The claims *)

(** C1. For every input name and every ordered list of Input Specs,
    [get_input_artifact_type_schema] scans the list in order: when the list
    splits into a front without the name and a first input [c] of that name,
    the result is that of [get_artifact_type_schema] on the type of [c];
    when no input has the name, the result is [None]; and every list is in
    one of the two cases.  For the three inputs "a" (Model), "b" (Integer),
    "a" (Dataset), looking up "a" returns the Model schema and looking up
    "c" returns [None]. *)
Theorem get_input_artifact_type_schema_first_match :
  (forall input_name (front : list InputSpec) c back,
     unnamed input_name front = true -> name c = input_name ->
     run (get_input_artifact_type_schema input_name (front ++ c :: back)) =
       run (get_artifact_type_schema (type c)))
  /\ (forall input_name inputs,
        unnamed input_name inputs = true ->
        run (get_input_artifact_type_schema input_name inputs) =
          (Return None, module_globals))
  /\ (forall input_name inputs,
        unnamed input_name inputs = true \/
        exists (front : list InputSpec) c back,
          inputs = (front ++ c :: back)%list /\
          unnamed input_name front = true /\ name c = input_name)
  /\ run (get_input_artifact_type_schema "a" three_inputs) =
       run (get_artifact_type_schema (PyStr "Model"))
  /\ run (get_artifact_type_schema (PyStr "Model")) =
       (Return (Some (schema_document "kfp.Model")), module_globals)
  /\ run (get_input_artifact_type_schema "c" three_inputs) =
       (Return None, module_globals).
Proof.
  split_and!.
  - intros n front c back Hfront Hc.
    by apply get_input_artifact_type_schema_first.
  - intros n inputs Hn. by apply get_input_artifact_type_schema_none.
  - apply first_named.
  - reflexivity.
  - unfold run. rewrite get_artifact_type_schema_str. simpl.
    by rewrite artifact_types_mapping_eq.
  - reflexivity.
Qed.

Lemma get_input_artifact_type_schema_first_match_witness :
  unnamed "a" [ {| name := "b"; type := PyStr "Integer" |} ] = true /\
  name {| name := "a"; type := PyStr "Dataset" |} = "a" /\
  run (get_input_artifact_type_schema "a"
         [ {| name := "b"; type := PyStr "Integer" |};
           {| name := "a"; type := PyStr "Dataset" |};
           {| name := "a"; type := PyStr "Model" |} ]) =
    run (get_artifact_type_schema (PyStr "Dataset")).
Proof.
  split; [reflexivity|]. split; [reflexivity|].
  apply (proj1 get_input_artifact_type_schema_first_match "a"
           [ {| name := "b"; type := PyStr "Integer" |} ]
           {| name := "a"; type := PyStr "Dataset" |}
           [ {| name := "a"; type := PyStr "Model" |} ]);
    reflexivity.
Defined.

(** C3. [is_artifact_type] on a string is membership of the lowercased
    string in the Artifact Type Table; the table has exactly the five keys
    gcspath, model, dataset, metrics and schema, each its own lowercase; and
    for each of the five, every casing of it is an artifact type, as are
    "Model", "MODEL" and "model". *)
Theorem is_artifact_type_any_casing :
  (forall s,
     run (is_artifact_type (PyStr s)) =
       (Return (bool_decide (Str.lower s ∈ dom artifact_types_mapping)),
        module_globals))
  /\ dom artifact_types_mapping =
       ({[ "gcspath"; "model"; "dataset"; "metrics"; "schema" ]} : gset string)
  /\ size (dom artifact_types_mapping) = 5
  /\ (forall k, k ∈ dom artifact_types_mapping -> Str.lower k = k)
  /\ (forall k s,
        k ∈ dom artifact_types_mapping -> Str.casing s k = true ->
        run (is_artifact_type (PyStr s)) = (Return true, module_globals))
  /\ run (is_artifact_type (PyStr "Model")) = (Return true, module_globals)
  /\ run (is_artifact_type (PyStr "MODEL")) = (Return true, module_globals)
  /\ run (is_artifact_type (PyStr "model")) = (Return true, module_globals).
Proof.
  split_and!.
  - intros s. unfold run. rewrite is_artifact_type_str.
    by rewrite dict_contains_dom.
  - apply artifact_types_mapping_dom.
  - reflexivity.
  - intros k Hk. by apply lower_small_letters, artifact_keys_small.
  - intros k s Hk Hs. unfold run. rewrite is_artifact_type_str.
    rewrite (casing_lower s k (artifact_keys_small k Hk) Hs).
    rewrite dict_contains_dom. simpl. by rewrite bool_decide_true.
  - reflexivity.
  - reflexivity.
  - reflexivity.
Qed.

Lemma is_artifact_type_any_casing_witness :
  "metrics" ∈ dom artifact_types_mapping /\
  Str.casing "mEtRiCS" "metrics" = true /\
  run (is_artifact_type (PyStr "mEtRiCS")) = (Return true, module_globals).
Proof.
  assert (Hk : "metrics" ∈ dom artifact_types_mapping)
    by (apply (bool_decide_unpack _); vm_compute; exact I).
  split; [exact Hk|]. split; [reflexivity|].
  apply (proj1 (proj2 (proj2 (proj2 (proj2 is_artifact_type_any_casing))))
           "metrics" "mEtRiCS" Hk).
  reflexivity.
Defined.

(** C4. On a string, [get_artifact_type_schema] lowercases it and looks it
    up in the Artifact Type Table: the result is the schema document stored
    under the lowercased name, or [None] when there is none.  "model" and
    "MODEL" give the same document, which contains the title marker
    "kfp.Model"; "nonexistent_type" gives [None] and raises nothing. *)
Theorem get_artifact_type_schema_lookup :
  (forall s,
     run (get_artifact_type_schema (PyStr s)) =
       (Return (artifact_types_mapping !! Str.lower s), module_globals))
  /\ (forall s,
        (exists doc,
           run (get_artifact_type_schema (PyStr s)) =
             (Return (Some doc), module_globals))
        <-> Str.lower s ∈ dom artifact_types_mapping)
  /\ (forall s,
        run (get_artifact_type_schema (PyStr s)) = (Return None, module_globals)
        <-> Str.lower s ∉ dom artifact_types_mapping)
  /\ (exists doc,
        run (get_artifact_type_schema (PyStr "model")) =
          (Return (Some doc), module_globals) /\
        run (get_artifact_type_schema (PyStr "MODEL")) =
          (Return (Some doc), module_globals) /\
        contains "kfp.Model" doc)
  /\ run (get_artifact_type_schema (PyStr "nonexistent_type")) =
       (Return None, module_globals).
Proof.
  split_and!.
  - intros s. apply get_artifact_type_schema_str.
  - intros s. unfold run. rewrite get_artifact_type_schema_str. simpl.
    rewrite elem_of_dom. split.
    + intros [doc Hdoc]. exists doc. congruence.
    + intros [doc ->]. by exists doc.
  - intros s. unfold run. rewrite get_artifact_type_schema_str. simpl.
    rewrite not_elem_of_dom. split; congruence.
  - exists (schema_document "kfp.Model"). split_and!.
    + unfold run. rewrite get_artifact_type_schema_str. simpl.
      by rewrite artifact_types_mapping_eq.
    + unfold run. rewrite get_artifact_type_schema_str. simpl.
      by rewrite artifact_types_mapping_eq.
    + exists "title: ", (Str.nl +:+ "type: object" +:+ Str.nl +:+ "properties:" +:+ Str.nl).
      reflexivity.
  - reflexivity.
Qed.

(** C8. For every string, [is_artifact_type] answers true exactly when
    [get_artifact_type_schema] returns a schema document rather than
    [None]. *)
Theorem is_artifact_type_iff_schema s :
  run (is_artifact_type (PyStr s)) = (Return true, module_globals)
  <-> exists doc,
        run (get_artifact_type_schema (PyStr s)) =
          (Return (Some doc), module_globals).
Proof.
  unfold run. rewrite is_artifact_type_str, get_artifact_type_schema_str.
  simpl. unfold dict_contains. split.
  - intros H. injection H as H.
    apply bool_decide_eq_true in H as [doc ->]. by exists doc.
  - intros [doc Hdoc]. injection Hdoc as ->. by rewrite bool_decide_true.
Qed.

(** C2. [get_parameter_type] on a string is a lookup of the lowercased
    string in the Parameter Type Table with STRING as the default:
    "integer" and "int" give INT, "float" and "double" give DOUBLE, and
    every string whose lowercase is not a key, such as "boolean", gives
    STRING and raises nothing.  The lookup is of the lowercased string:
    "INT" gives INT. *)
Theorem get_parameter_type_table_lookup :
  (forall s,
     run (get_parameter_type (PyStr s)) =
       (Return (default STRING (parameter_types_mapping !! Str.lower s)),
        module_globals))
  /\ dom parameter_types_mapping =
       ({[ "integer"; "int"; "double"; "float" ]} : gset string)
  /\ run (get_parameter_type (PyStr "integer")) = (Return INT, module_globals)
  /\ run (get_parameter_type (PyStr "int")) = (Return INT, module_globals)
  /\ run (get_parameter_type (PyStr "float")) = (Return DOUBLE, module_globals)
  /\ run (get_parameter_type (PyStr "double")) = (Return DOUBLE, module_globals)
  /\ (forall s,
        dict_contains parameter_types_mapping (Str.lower s) = false ->
        run (get_parameter_type (PyStr s)) = (Return STRING, module_globals))
  /\ dict_contains parameter_types_mapping "boolean" = false
  /\ run (get_parameter_type (PyStr "boolean")) = (Return STRING, module_globals)
  /\ run (get_parameter_type (PyStr "INT")) = (Return INT, module_globals).
Proof.
  split_and!.
  - intros s. apply get_parameter_type_str.
  - apply parameter_types_mapping_dom.
  - reflexivity.
  - reflexivity.
  - reflexivity.
  - reflexivity.
  - intros s Hs. unfold run. rewrite get_parameter_type_str. simpl.
    by rewrite (dict_contains_false _ _ Hs).
  - reflexivity.
  - reflexivity.
  - reflexivity.
Qed.

Lemma get_parameter_type_table_lookup_witness :
  dict_contains parameter_types_mapping (Str.lower "GCSPath") = false /\
  run (get_parameter_type (PyStr "GCSPath")) = (Return STRING, module_globals).
Proof.
  split; [reflexivity|].
  apply (proj1 (proj2 (proj2 (proj2 (proj2 (proj2 (proj2
           get_parameter_type_table_lookup)))))) "GCSPath").
  reflexivity.
Defined.

(** C5. On every input that is not a string (a number, [None], a
    structured value) [is_artifact_type] returns false and
    [get_parameter_type] returns STRING; and on every input whatsoever both
    return a value, never an exception. *)
Theorem non_string_inputs_degrade :
  (forall v,
     isinstance_str v = false ->
     run (is_artifact_type v) = (Return false, module_globals) /\
     run (get_parameter_type v) = (Return STRING, module_globals))
  /\ (forall v, exists b p,
        run (is_artifact_type v) = (Return b, module_globals) /\
        run (get_parameter_type v) = (Return p, module_globals))
  /\ run (is_artifact_type (PyInt 7)) = (Return false, module_globals)
  /\ run (is_artifact_type PyNone) = (Return false, module_globals)
  /\ run (is_artifact_type (PyDict [("GCSPath", PyDict [])])) =
       (Return false, module_globals)
  /\ run (get_parameter_type (PyInt 7)) = (Return STRING, module_globals)
  /\ run (get_parameter_type PyNone) = (Return STRING, module_globals)
  /\ run (get_parameter_type (PyDict [("GCSPath", PyDict [])])) =
       (Return STRING, module_globals).
Proof.
  split_and!; try reflexivity.
  - intros v Hv. split.
    + by apply is_artifact_type_other.
    + by apply get_parameter_type_other.
  - intros v. destruct (isinstance_str v) eqn:Hv.
    + destruct v as [[]|]; try discriminate. eexists _, _. split.
      * apply is_artifact_type_str.
      * apply get_parameter_type_str.
    + exists false, STRING. split.
      * by apply is_artifact_type_other.
      * by apply get_parameter_type_other.
Qed.

Lemma non_string_inputs_degrade_witness :
  isinstance_str (PyList [PyStr "model"]) = false /\
  run (is_artifact_type (PyList [PyStr "model"])) = (Return false, module_globals) /\
  run (get_parameter_type (PyList [PyStr "model"])) = (Return STRING, module_globals).
Proof.
  split; [reflexivity|].
  apply (proj1 non_string_inputs_degrade (PyList [PyStr "model"])).
  reflexivity.
Defined.




(** C7. The four operations are deterministic and leave the two tables as
    they were loaded: every call ends with the globals it started with; in
    any session of calls made in the loaded module each outcome is the one
    that call has on its own, the globals at the end are those at the
    start, and two calls with the same operation and arguments have the
    same outcome wherever they stand in the session. *)
Theorem operations_pure_and_read_only :
  (forall g,
     (forall v, (is_artifact_type v g).2 = g) /\
     (forall v, (get_artifact_type_schema v g).2 = g) /\
     (forall v, (get_parameter_type v g).2 = g) /\
     (forall n inputs, (get_input_artifact_type_schema n inputs g).2 = g))
  /\ (forall cs,
        session cs module_globals =
          (map (fun c => (run (perform c)).1) cs, module_globals))
  /\ (forall cs,
        _ARTIFACT_TYPES_MAPPING (session cs module_globals).2 =
          artifact_types_mapping /\
        _PARAMETER_TYPES_MAPPING (session cs module_globals).2 =
          parameter_types_mapping)
  /\ (forall cs (i j : nat) c,
        cs !! i = Some c -> cs !! j = Some c ->
        (session cs module_globals).1 !! i =
          (session cs module_globals).1 !! j).
Proof.
  split_and!.
  - intros g. split_and!; intros.
    + apply is_artifact_type_globals.
    + apply get_artifact_type_schema_globals.
    + apply get_parameter_type_globals.
    + apply get_input_artifact_type_schema_globals.
  - intros cs. apply session_read_only.
  - intros cs. by rewrite session_read_only.
  - intros cs i j c Hi Hj. rewrite session_read_only. simpl.
    by rewrite !list_lookup_fmap, Hi, Hj.
Qed.

Lemma operations_pure_and_read_only_witness :
  four_calls !! 0 = Some (Call_is_artifact_type (PyStr "Model")) /\
  four_calls !! 3 = Some (Call_is_artifact_type (PyStr "Model")) /\
  (session four_calls module_globals).1 !! 0 =
    (session four_calls module_globals).1 !! 3.
Proof.
  split; [reflexivity|]. split; [reflexivity|].
  apply (proj2 (proj2 (proj2 operations_pure_and_read_only))
           four_calls 0 3 (Call_is_artifact_type (PyStr "Model")));
    reflexivity.
Defined.

(** C9. When the first Input Spec of the wanted name has a type string
    that is not an artifact type (its lowercase is not a key of the
    Artifact Type Table), [get_input_artifact_type_schema] returns [None]
    whatever follows it in the list, even a later input of the same name
    with a recognized type; the outcome is the one of a list with no input
    of that name at all. *)
Theorem get_input_artifact_type_schema_unrecognized
    input_name (front : list InputSpec) c back t :
  unnamed input_name front = true ->
  name c = input_name ->
  type c = PyStr t ->
  dict_contains artifact_types_mapping (Str.lower t) = false ->
  run (get_input_artifact_type_schema input_name (front ++ c :: back)) =
    (Return None, module_globals)
  /\ run (is_artifact_type (type c)) = (Return false, module_globals)
  /\ (forall others,
        unnamed input_name others = true ->
        run (get_input_artifact_type_schema input_name (front ++ c :: back)) =
          run (get_input_artifact_type_schema input_name others)).
Proof.
  intros Hfront Hc Ht Hlow.
  assert (Hrun : run (get_input_artifact_type_schema input_name (front ++ c :: back)) =
                   (Return None, module_globals)).
  { unfold run. rewrite get_input_artifact_type_schema_first by done.
    rewrite Ht, get_artifact_type_schema_str. simpl.
    by rewrite (dict_contains_false _ _ Hlow). }
  split_and!.
  - exact Hrun.
  - unfold run. rewrite Ht, is_artifact_type_str. simpl. by rewrite Hlow.
  - intros others Ho. rewrite Hrun. unfold run.
    by rewrite get_input_artifact_type_schema_none.
Qed.

Lemma get_input_artifact_type_schema_unrecognized_witness :
  unnamed "a" [ {| name := "b"; type := PyStr "Dataset" |} ] = true /\
  dict_contains artifact_types_mapping (Str.lower "Integer") = false /\
  dict_contains artifact_types_mapping (Str.lower "Model") = true /\
  run (get_input_artifact_type_schema "a"
         [ {| name := "b"; type := PyStr "Dataset" |};
           {| name := "a"; type := PyStr "Integer" |};
           {| name := "a"; type := PyStr "Model" |} ]) =
    (Return None, module_globals).
Proof.
  split; [reflexivity|]. split; [reflexivity|]. split; [reflexivity|].
  apply (get_input_artifact_type_schema_unrecognized "a"
           [ {| name := "b"; type := PyStr "Dataset" |} ]
           {| name := "a"; type := PyStr "Integer" |}
           [ {| name := "a"; type := PyStr "Model" |} ]
           "Integer"); reflexivity.
Defined.

(** C10. When the first Input Spec of the wanted name has a type that is
    not a string, [get_input_artifact_type_schema] raises the
    [AttributeError] of [get_artifact_type_schema] on that type instead of
    returning [None], whatever follows in the list. *)
Theorem get_input_artifact_type_schema_non_string
    input_name (front : list InputSpec) c back :
  unnamed input_name front = true ->
  name c = input_name ->
  isinstance_str (type c) = false ->
  run (get_input_artifact_type_schema input_name (front ++ c :: back)) =
    run (get_artifact_type_schema (type c))
  /\ run (get_input_artifact_type_schema input_name (front ++ c :: back)) =
       (Raise AttributeError, module_globals).
Proof.
  intros Hfront Hc Ht. unfold run.
  rewrite get_input_artifact_type_schema_first by done.
  by rewrite get_artifact_type_schema_other.
Qed.

Lemma get_input_artifact_type_schema_non_string_witness :
  unnamed "a" [ {| name := "b"; type := PyStr "Dataset" |} ] = true /\
  isinstance_str PyNone = false /\
  run (get_input_artifact_type_schema "a"
         [ {| name := "b"; type := PyStr "Dataset" |};
           {| name := "a"; type := PyNone |};
           {| name := "a"; type := PyStr "Model" |} ]) =
    (Raise AttributeError, module_globals).
Proof.
  split; [reflexivity|]. split; [reflexivity|].
  apply (get_input_artifact_type_schema_non_string "a"
           [ {| name := "b"; type := PyStr "Dataset" |} ]
           {| name := "a"; type := PyNone |}
           [ {| name := "a"; type := PyStr "Model" |} ]); reflexivity.
Defined.


(** * Further properties of the four functions *)

(** ** Helper facts *)

(** A character that lowercases to a small unaccented letter is that
    letter or its capital. *)
Lemma lower_char_small_inv a :
  Str.in_range 97 122 (N_of_ascii (Str.lower_char a)) = true ->
  Ascii.eqb a (Str.lower_char a)
  || Ascii.eqb a (Str.upper_char (Str.lower_char a)) = true.
Proof.
  destruct a as [[] [] [] [] [] [] [] []]; vm_compute; congruence.
Qed.

Lemma lower_casing s k :
  Str.small_letters k = true -> Str.lower s = k -> Str.casing s k = true.
Proof.
  revert k. induction s as [|a s IH]; intros [|c k]; simpl; try done.
  intros [Hc Hk]%andb_true_iff [= Ha Hs].
  rewrite (IH k Hk Hs), andb_true_r. subst c.
  by apply lower_char_small_inv.
Qed.

Lemma parameter_keys_small k :
  k ∈ dom parameter_types_mapping -> Str.small_letters k = true.
Proof.
  rewrite parameter_types_mapping_dom. set_unfold.
  intros Hk. destruct_or!; subst k; reflexivity.
Qed.

Lemma parameter_types_mapping_eq :
  parameter_types_mapping =
    <["float" := DOUBLE]> (<["double" := DOUBLE]>
    (<["int" := INT]> (<["integer" := INT]> ∅))).
Proof. reflexivity. Qed.

(** A casing of a key is recognised, and nothing else is. *)
Lemma lower_in_keys {V} (d : gmap string V) s :
  (forall k, k ∈ dom d -> Str.small_letters k = true) ->
  Str.lower s ∈ dom d <-> exists k, k ∈ dom d /\ Str.casing s k = true.
Proof.
  intros Hsmall. split.
  - intros Hs. exists (Str.lower s). split; [done|].
    apply lower_casing; [by apply Hsmall | done].
  - intros (k & Hk & Hs).
    by rewrite (casing_lower s k (Hsmall k Hk) Hs).
Qed.

(** The lookup of a key in the artifact table, case by case. *)
Lemma artifact_lookup_cases key doc :
  artifact_types_mapping !! key = Some doc ->
  (key = "gcspath" /\ doc = schema_document "kfp.Artifact") \/
  (key = "model" /\ doc = schema_document "kfp.Model") \/
  (key = "dataset" /\ doc = schema_document "kfp.Dataset") \/
  (key = "metrics" /\ doc = schema_document "kfp.Metrics") \/
  (key = "schema" /\ doc = schema_document "kfp.Schema").
Proof.
  rewrite artifact_types_mapping_eq.
  rewrite !lookup_insert. repeat case_decide; subst;
    rewrite ?lookup_empty; intros [= <-]; tauto.
Qed.

Lemma parameter_lookup_cases key p :
  parameter_types_mapping !! key = Some p ->
  (key = "integer" /\ p = INT) \/ (key = "int" /\ p = INT) \/
  (key = "double" /\ p = DOUBLE) \/ (key = "float" /\ p = DOUBLE).
Proof.
  rewrite parameter_types_mapping_eq.
  rewrite !lookup_insert. repeat case_decide; subst;
    rewrite ?lookup_empty; intros [= <-]; tauto.
Qed.

Lemma get_parameter_type_casing s k p :
  parameter_types_mapping !! k = Some p -> Str.casing s k = true ->
  run (get_parameter_type (PyStr s)) = (Return p, module_globals).
Proof.
  intros Hk Hs. unfold run. rewrite get_parameter_type_str. simpl.
  assert (Hsmall : Str.small_letters k = true)
    by (apply parameter_keys_small, elem_of_dom; eauto).
  by rewrite (casing_lower s k Hsmall Hs), Hk.
Qed.

Lemma casing_false_lookup {V} (d : gmap string V) s :
  (forall k, k ∈ dom d -> Str.small_letters k = true) ->
  d !! Str.lower s = None <-> forall k, k ∈ dom d -> Str.casing s k = false.
Proof.
  intros Hsmall. rewrite <- not_elem_of_dom, (lower_in_keys d s Hsmall). split.
  - intros Hno k Hk. destruct (Str.casing s k) eqn:Hs; [|done].
    destruct Hno. eauto.
  - intros Hall (k & Hk & Hs). by rewrite (Hall k Hk) in Hs.
Qed.

(** The test and the lookup agree on strings. *)
Lemma artifact_test_gives_schema s :
  run (is_artifact_type (PyStr s)) = (Return true, module_globals) ->
  exists doc,
    run (get_artifact_type_schema (PyStr s)) = (Return (Some doc), module_globals).
Proof.
  unfold run. rewrite is_artifact_type_str, get_artifact_type_schema_str.
  simpl. intros [= H]. apply bool_decide_eq_true in H as [doc ->]. by exists doc.
Qed.

(** ** Case does not matter, and nothing but case is forgiven *)

(** Two type names that differ in case only are treated alike by the three
    lookups, and lowercasing a name before the call changes nothing. *)
Theorem type_name_case_insensitive s t :
  Str.lower s = Str.lower t ->
  run (is_artifact_type (PyStr s)) = run (is_artifact_type (PyStr t))
  /\ run (get_artifact_type_schema (PyStr s)) =
       run (get_artifact_type_schema (PyStr t))
  /\ run (get_parameter_type (PyStr s)) = run (get_parameter_type (PyStr t))
  /\ run (is_artifact_type (PyStr (Str.lower s))) =
       run (is_artifact_type (PyStr s))
  /\ run (get_artifact_type_schema (PyStr (Str.lower s))) =
       run (get_artifact_type_schema (PyStr s))
  /\ run (get_parameter_type (PyStr (Str.lower s))) =
       run (get_parameter_type (PyStr s)).
Proof.
  intros Hst. unfold run.
  rewrite !is_artifact_type_str, !get_artifact_type_schema_str,
    !get_parameter_type_str, !lower_idem, Hst.
  by split_and!.
Qed.

Lemma type_name_case_insensitive_witness :
  Str.lower "DataSet" = Str.lower "dATASET" /\
  run (get_artifact_type_schema (PyStr "DataSet")) =
    run (get_artifact_type_schema (PyStr "dATASET")).
Proof.
  split; [reflexivity|].
  apply (type_name_case_insensitive "DataSet" "dATASET"). reflexivity.
Defined.

(** The strings [is_artifact_type] accepts are the casings of the five
    keys and no others: nothing is trimmed, abbreviated or otherwise
    normalised. *)
Theorem is_artifact_type_exactly_casings s :
  run (is_artifact_type (PyStr s)) = (Return true, module_globals)
  <-> exists k, k ∈ dom artifact_types_mapping /\ Str.casing s k = true.
Proof.
  rewrite <- (lower_in_keys _ s artifact_keys_small).
  unfold run. rewrite is_artifact_type_str, dict_contains_dom. simpl. split.
  - intros [= H]. by apply bool_decide_eq_true in H.
  - intros H. by rewrite bool_decide_true.
Qed.

(** [get_parameter_type] gives INT exactly on the casings of "integer" and
    "int", DOUBLE exactly on the casings of "double" and "float", and
    STRING exactly on the strings that are a casing of none of the four. *)
Theorem get_parameter_type_aliases s :
  (run (get_parameter_type (PyStr s)) = (Return INT, module_globals)
   <-> Str.casing s "integer" = true \/ Str.casing s "int" = true)
  /\ (run (get_parameter_type (PyStr s)) = (Return DOUBLE, module_globals)
      <-> Str.casing s "double" = true \/ Str.casing s "float" = true)
  /\ (run (get_parameter_type (PyStr s)) = (Return STRING, module_globals)
      <-> forall k, k ∈ dom parameter_types_mapping -> Str.casing s k = false).
Proof.
  assert (Hcases :
    forall p, run (get_parameter_type (PyStr s)) = (Return p, module_globals) ->
      (p = STRING /\ parameter_types_mapping !! Str.lower s = None) \/
      exists k, parameter_types_mapping !! k = Some p /\ Str.casing s k = true).
  { intros p. unfold run. rewrite get_parameter_type_str. simpl.
    destruct (parameter_types_mapping !! Str.lower s) as [q|] eqn:Hq; simpl.
    - intros [= ->]. right. exists (Str.lower s). split; [done|].
      apply lower_casing; [|done].
      apply parameter_keys_small, elem_of_dom. eauto.
    - intros [= <-]. by left. }
  split_and!.
  - split.
    + intros [[? _] | (k & Hk & Hs)]%Hcases; [done|].
      apply parameter_lookup_cases in Hk.
      destruct_or!; destruct_and!; subst; try done; tauto.
    + intros [Hs | Hs];
        by apply (get_parameter_type_casing s _ INT) in Hs.
  - split.
    + intros [[? _] | (k & Hk & Hs)]%Hcases; [done|].
      apply parameter_lookup_cases in Hk.
      destruct_or!; destruct_and!; subst; try done; tauto.
    + intros [Hs | Hs];
        by apply (get_parameter_type_casing s _ DOUBLE) in Hs.
  - rewrite <- (casing_false_lookup _ s parameter_keys_small). split.
    + intros [[_ Hnone] | (k & Hk & Hs)]%Hcases; [done|].
      apply parameter_lookup_cases in Hk.
      destruct_or!; destruct_and!; discriminate.
    + intros Hnone. unfold run. rewrite get_parameter_type_str. simpl.
      by rewrite Hnone.
Qed.

(** ** The two tables together *)

(** [is_artifact_type] is a sufficient guard for the unguarded schema
    lookup: on every value, string or not, on which it answers true,
    [get_artifact_type_schema] raises nothing and returns a document. *)
Theorem is_artifact_type_guards_schema v :
  run (is_artifact_type v) = (Return true, module_globals) ->
  exists doc,
    run (get_artifact_type_schema v) = (Return (Some doc), module_globals).
Proof.
  destruct v as [[| | |s| |]|b]; try discriminate.
  intros H. by apply artifact_test_gives_schema.
Qed.

Lemma is_artifact_type_guards_schema_witness :
  run (is_artifact_type (PyStr "Schema")) = (Return true, module_globals) /\
  exists doc,
    run (get_artifact_type_schema (PyStr "Schema")) =
      (Return (Some doc), module_globals).
Proof.
  split; [reflexivity|].
  apply (is_artifact_type_guards_schema (PyStr "Schema")). reflexivity.
Defined.

(** No name is both an artifact type and a numeric parameter type: what
    [is_artifact_type] accepts, [get_parameter_type] maps to STRING, and
    what [get_parameter_type] maps to INT or DOUBLE has no schema. *)
Theorem artifact_and_parameter_types_disjoint v :
  (run (is_artifact_type v) = (Return true, module_globals) ->
   run (get_parameter_type v) = (Return STRING, module_globals))
  /\ (run (get_parameter_type v) <> (Return STRING, module_globals) ->
      run (is_artifact_type v) = (Return false, module_globals) /\
      run (get_artifact_type_schema v) = (Return None, module_globals)).
Proof.
  destruct v as [[| | |s| |]|b]; try (split; [discriminate | by intros []]).
  unfold run.
  rewrite is_artifact_type_str, get_parameter_type_str,
    get_artifact_type_schema_str. simpl. unfold dict_contains.
  destruct (artifact_types_mapping !! Str.lower s) as [doc|] eqn:Hdoc.
  - assert (Hnone : parameter_types_mapping !! Str.lower s = None).
    { apply artifact_lookup_cases in Hdoc.
      destruct_or!; destruct_and!; by match goal with H : Str.lower s = _ |- _ => rewrite H end. }
    rewrite Hnone. simpl. split; [done|]. by intros [].
  - split; [|done]. by intros [= ?].
Qed.

Lemma artifact_and_parameter_types_disjoint_witness :
  run (get_parameter_type (PyStr "Float")) <> (Return STRING, module_globals) /\
  run (is_artifact_type (PyStr "Float")) = (Return false, module_globals) /\
  run (get_artifact_type_schema (PyStr "Float")) = (Return None, module_globals).
Proof.
  assert (H : run (get_parameter_type (PyStr "Float")) <>
              (Return STRING, module_globals)) by discriminate.
  split; [exact H|].
  apply (proj2 (artifact_and_parameter_types_disjoint (PyStr "Float")) H).
Defined.


(** ** The schema documents *)

(** The schema document tells the artifact kind: two type names with the
    same document are the same name up to case. *)
Theorem get_artifact_type_schema_injective s t doc :
  run (get_artifact_type_schema (PyStr s)) = (Return (Some doc), module_globals) ->
  run (get_artifact_type_schema (PyStr t)) = (Return (Some doc), module_globals) ->
  Str.lower s = Str.lower t.
Proof.
  unfold run. rewrite !get_artifact_type_schema_str. simpl.
  intros [= Hs%artifact_lookup_cases] [= Ht%artifact_lookup_cases].
  destruct_or!; destruct_and!; subst doc; try congruence; discriminate.
Qed.

Lemma get_artifact_type_schema_injective_witness :
  run (get_artifact_type_schema (PyStr "METRICS")) =
    (Return (Some (schema_document "kfp.Metrics")), module_globals) /\
  run (get_artifact_type_schema (PyStr "Metrics")) =
    (Return (Some (schema_document "kfp.Metrics")), module_globals) /\
  Str.lower "METRICS" = Str.lower "Metrics".
Proof.
  assert (H1 : run (get_artifact_type_schema (PyStr "METRICS")) =
                 (Return (Some (schema_document "kfp.Metrics")), module_globals)).
  { unfold run. rewrite get_artifact_type_schema_str. simpl.
    rewrite artifact_types_mapping_eq. reflexivity. }
  assert (H2 : run (get_artifact_type_schema (PyStr "Metrics")) =
                 (Return (Some (schema_document "kfp.Metrics")), module_globals)).
  { unfold run. rewrite get_artifact_type_schema_str. simpl.
    rewrite artifact_types_mapping_eq. reflexivity. }
  split; [exact H1|]. split; [exact H2|].
  exact (get_artifact_type_schema_injective "METRICS" "Metrics" _ H1 H2).
Defined.

(** Every document the lookup returns is flush left and has exactly the
    three lines [title: kfp.<Kind>], [type: object] and [properties:], the
    title being one of the five kinds. *)
Theorem get_artifact_type_schema_document s doc :
  run (get_artifact_type_schema (PyStr s)) = (Return (Some doc), module_globals) ->
  exists title, title ∈ artifact_titles /\ doc = schema_document title.
Proof.
  unfold run. rewrite get_artifact_type_schema_str. simpl.
  intros [= Hs%artifact_lookup_cases]. unfold artifact_titles.
  destruct_or!; destruct_and!; subst doc; eexists; (split; [|reflexivity]);
    set_solver.
Qed.

Lemma get_artifact_type_schema_document_witness :
  run (get_artifact_type_schema (PyStr "GCSPath")) =
    (Return (Some (schema_document "kfp.Artifact")), module_globals) /\
  exists title,
    title ∈ artifact_titles /\
    schema_document "kfp.Artifact" = schema_document title.
Proof.
  assert (H : run (get_artifact_type_schema (PyStr "GCSPath")) =
                (Return (Some (schema_document "kfp.Artifact")), module_globals)).
  { unfold run. rewrite get_artifact_type_schema_str. simpl.
    rewrite artifact_types_mapping_eq. reflexivity. }
  split; [exact H|].
  exact (get_artifact_type_schema_document "GCSPath" _ H).
Defined.

(** ** The scan over the inputs *)

Lemma unnamed_named n inputs :
  unnamed n inputs = true <-> named n inputs = [].
Proof.
  unfold named. induction inputs as [|d inputs IH]; simpl; [done|].
  rewrite filter_cons. destruct (decide (name d = n)) as [Hd|Hd].
  - apply String.eqb_eq in Hd as ->. simpl. split; discriminate.
  - apply String.eqb_neq in Hd as ->. simpl. apply IH.
Qed.

Lemma get_input_artifact_type_schema_named n inputs g :
  get_input_artifact_type_schema n inputs g =
    match named n inputs with
    | c :: _ => get_artifact_type_schema (type c) g
    | [] => (Return None, g)
    end.
Proof.
  unfold named. induction inputs as [|d inputs IH]; simpl; [done|].
  rewrite filter_cons. destruct (decide (name d = n)) as [Hd|Hd].
  - by apply String.eqb_eq in Hd as ->.
  - by apply String.eqb_neq in Hd as ->.
Qed.

Lemma named_idem n inputs : named n (named n inputs) = named n inputs.
Proof.
  unfold named. rewrite list_filter_filter. apply list_filter_iff. tauto.
Qed.

(** Among inputs of distinct names at most one goes by a given name. *)
Lemma named_unique n inputs :
  NoDup (name <$> inputs) ->
  named n inputs = [] \/ exists c, named n inputs = [c].
Proof.
  unfold named. induction inputs as [|d inputs IH]; simpl; [by left|].
  intros [Hd Hrest]%NoDup_cons. rewrite filter_cons.
  destruct (decide (name d = n)) as [Hn|Hn]; [|by apply IH].
  right. exists d. f_equal.
  clear IH Hrest. induction inputs as [|c inputs IH]; [done|].
  rewrite fmap_cons, not_elem_of_cons in Hd. destruct Hd as [Hc Hd].
  rewrite filter_cons_False by congruence. by apply IH.
Qed.

(** Scanning a concatenation: the second list is consulted only when the
    first has no input of the wanted name. *)
Theorem get_input_artifact_type_schema_app n (l1 l2 : list InputSpec) :
  run (get_input_artifact_type_schema n (l1 ++ l2)) =
    if unnamed n l1
    then run (get_input_artifact_type_schema n l2)
    else run (get_input_artifact_type_schema n l1).
Proof.
  unfold run. induction l1 as [|d l1 IH]; simpl; [done|].
  destruct (name d =? n)%string; simpl; [done|apply IH].
Qed.

(** The result depends on the inputs of the wanted name only, and among
    them on the first: the others can be dropped from the list. *)
Theorem get_input_artifact_type_schema_only_named n inputs :
  run (get_input_artifact_type_schema n inputs) =
    run (get_input_artifact_type_schema n (named n inputs))
  /\ run (get_input_artifact_type_schema n inputs) =
       run (get_input_artifact_type_schema n (take 1 (named n inputs))).
Proof.
  unfold run. rewrite !get_input_artifact_type_schema_named. split.
  - by rewrite named_idem.
  - destruct (named n inputs) as [|c rest] eqn:Hc; [done|]. simpl.
    assert (Hn : name c = n).
    { assert (Hin : c ∈ named n inputs) by (rewrite Hc; left).
      by apply list_elem_of_filter in Hin as [? _]. }
    unfold named. by rewrite filter_cons_True.
Qed.

(** A document comes back only when an input of that name is in the list,
    its type is a string, the string is an artifact type, and the document
    is the one stored for it. *)
Theorem get_input_artifact_type_schema_found n inputs doc :
  run (get_input_artifact_type_schema n inputs) =
    (Return (Some doc), module_globals) ->
  exists c t,
    c ∈ inputs /\ name c = n /\ type c = PyStr t /\
    run (is_artifact_type (PyStr t)) = (Return true, module_globals) /\
    artifact_types_mapping !! Str.lower t = Some doc.
Proof.
  unfold run. rewrite get_input_artifact_type_schema_named.
  destruct (named n inputs) as [|c rest] eqn:Hc; [discriminate|].
  assert (Hin : c ∈ named n inputs) by (rewrite Hc; left).
  apply list_elem_of_filter in Hin as [Hn Hin].
  destruct (type c) as [| | |t| |] eqn:Ht; try discriminate.
  rewrite get_artifact_type_schema_str. simpl. intros [= Hdoc].
  exists c, t. split_and!; try done.
  rewrite is_artifact_type_str. simpl. unfold dict_contains.
  by rewrite Hdoc, bool_decide_true.
Qed.

Lemma get_input_artifact_type_schema_found_witness :
  run (get_input_artifact_type_schema "a" three_inputs) =
    (Return (Some (schema_document "kfp.Model")), module_globals) /\
  exists c t,
    c ∈ three_inputs /\ name c = "a" /\ type c = PyStr t /\
    run (is_artifact_type (PyStr t)) = (Return true, module_globals) /\
    artifact_types_mapping !! Str.lower t = Some (schema_document "kfp.Model").
Proof.
  assert (H : run (get_input_artifact_type_schema "a" three_inputs) =
                (Return (Some (schema_document "kfp.Model")), module_globals)).
  { unfold run. simpl. rewrite get_artifact_type_schema_str. simpl.
    rewrite artifact_types_mapping_eq. reflexivity. }
  split; [exact H|].
  exact (get_input_artifact_type_schema_found "a" three_inputs _ H).
Defined.

(** The scan raises exactly when the first input of the wanted name
    declares a type that is not a string; inputs of other names, and later
    inputs of the same name, are never inspected. *)
Theorem get_input_artifact_type_schema_raises n inputs :
  (exists e, (run (get_input_artifact_type_schema n inputs)).1 = Raise e)
  <-> exists c rest,
        named n inputs = c :: rest /\ isinstance_str (type c) = false.
Proof.
  unfold run. rewrite get_input_artifact_type_schema_named.
  destruct (named n inputs) as [|c rest]; simpl.
  - split; [by intros [e ?] | by intros (c & rest & ? & _)].
  - split.
    + intros [e He]. exists c, rest. split; [done|]. by destruct (type c).
    + intros (c' & rest' & [= <- <-] & Hc). exists AttributeError.
      by rewrite get_artifact_type_schema_other.
Qed.

(** When every input declares its type as a string, the scan returns a
    result for every name. *)
Theorem get_input_artifact_type_schema_string_typed n inputs :
  string_typed inputs = true ->
  exists r,
    run (get_input_artifact_type_schema n inputs) = (Return r, module_globals).
Proof.
  unfold run. induction inputs as [|d inputs IH]; simpl; [by eexists|].
  intros [Hd Hrest]%andb_true_iff.
  destruct (name d =? n)%string; [|by apply IH].
  destruct (type d); try discriminate. eexists.
  apply get_artifact_type_schema_str.
Qed.

Lemma get_input_artifact_type_schema_string_typed_witness :
  string_typed three_inputs = true /\
  exists r,
    run (get_input_artifact_type_schema "b" three_inputs) =
      (Return r, module_globals).
Proof.
  split; [reflexivity|].
  apply (get_input_artifact_type_schema_string_typed "b" three_inputs).
  reflexivity.
Defined.

(** [None] comes back in exactly two situations: no input has the wanted
    name, or the first that has it declares a string that is not an
    artifact type. *)
Theorem get_input_artifact_type_schema_none_iff n inputs :
  run (get_input_artifact_type_schema n inputs) = (Return None, module_globals)
  <-> named n inputs = [] \/
      exists c rest t,
        named n inputs = c :: rest /\ type c = PyStr t /\
        run (is_artifact_type (PyStr t)) = (Return false, module_globals).
Proof.
  unfold run. rewrite get_input_artifact_type_schema_named.
  destruct (named n inputs) as [|c rest]; simpl.
  - split; [by left | done].
  - split.
    + intros H. right. destruct (type c) as [| | |t| |] eqn:Ht; try discriminate.
      exists c, rest, t. split_and!; try done.
      rewrite get_artifact_type_schema_str in H. injection H as H.
      rewrite is_artifact_type_str. simpl. unfold dict_contains.
      rewrite H. by rewrite bool_decide_false by (by intros []).
    + intros [? | (c' & rest' & t & [= <- <-] & Ht & Hfalse)]; [done|].
      rewrite Ht, get_artifact_type_schema_str. simpl.
      rewrite is_artifact_type_str in Hfalse. injection Hfalse as Hfalse.
      by rewrite (dict_contains_false _ _ Hfalse).
Qed.

(** When the inputs have distinct names, as in a well-formed component
    specification, their order does not matter to the lookup. *)
Theorem get_input_artifact_type_schema_order n (l l' : list InputSpec) :
  NoDup (name <$> l) -> l ≡ₚ l' ->
  run (get_input_artifact_type_schema n l) =
    run (get_input_artifact_type_schema n l').
Proof.
  intros Hl Hperm. unfold run. rewrite !get_input_artifact_type_schema_named.
  assert (Hnamed : named n l ≡ₚ named n l')
    by (unfold named; by rewrite Hperm).
  destruct (named_unique n l Hl) as [Hnil | [c Hc]].
  - rewrite Hnil in Hnamed |- *.
    apply Permutation_nil_l in Hnamed. by rewrite <- Hnamed.
  - rewrite Hc in Hnamed |- *.
    apply Permutation_singleton_l in Hnamed. by rewrite <- Hnamed.
Qed.

Lemma get_input_artifact_type_schema_order_witness :
  NoDup (name <$> [ {| name := "a"; type := PyStr "Model" |};
                    {| name := "b"; type := PyStr "Dataset" |} ]) /\
  run (get_input_artifact_type_schema "b"
         [ {| name := "a"; type := PyStr "Model" |};
           {| name := "b"; type := PyStr "Dataset" |} ]) =
    run (get_input_artifact_type_schema "b"
           [ {| name := "b"; type := PyStr "Dataset" |};
             {| name := "a"; type := PyStr "Model" |} ]).
Proof.
  assert (Hnd : NoDup (name <$> [ {| name := "a"; type := PyStr "Model" |};
                                  {| name := "b"; type := PyStr "Dataset" |} ])).
  { simpl. apply NoDup_cons. split; [|apply NoDup_singleton].
    by intros ?%list_elem_of_singleton. }
  split; [exact Hnd|].
  apply (get_input_artifact_type_schema_order "b" _ _ Hnd).
  apply perm_swap.
Defined.
